(** * Prometheus remote-write exporter: configuration validation

    Shallow embedding of [exporter/prometheusremotewriteexporter/config.go]:
    the [Config] schema with its embedded [RemoteWriteQueue] and
    [MultiTenancy] records, the method [Config.Validate], and the
    package initialiser that registers the label-sanitization feature gate.

    Conventions.
    - Go's [int] is a two's-complement machine integer.  [Validate] only
      compares the two [int] fields with the literal 0 and performs no
      arithmetic, so no wrap-around can occur; the fields are carried as
      [Z] and every statement below holds in particular for the values a
      64-bit [int] can take.
    - Go strings are byte sequences, as are [string]s here.
    - A Go [error] is either nil or a value carrying a message; it is
      an [option string], [None] being nil.
    - A Go [map[string]string] is a [gmap string string]. *)

From Stdlib Require Import ZArith Bool List Ascii String Lia.
From stdpp Require Import base option strings gmap.

Local Open Scope string_scope.
Local Open Scope Z_scope.

(** ** Errors *)

Definition error : Type := option string.

(** [fmt.Errorf(format)] with no operands.  None of the format strings
    used in this package contains a ['%'] verb (see [messages_have_no_verb]),
    hence the message of the resulting error is the format itself. *)
Definition Errorf (format : string) : error := Some format.

Fixpoint has_verb (s : string) : bool :=
  match s with
  | EmptyString => false
  | String c s' => Ascii.eqb c "%"%char || has_verb s'
  end.

(** ** The schema *)

Module RemoteWriteQueue.
Record t : Type := mk {
  Enabled : bool;
  QueueSize : Z;
  NumConsumers : Z
}.
End RemoteWriteQueue.

Module MultiTenancy.
Record t : Type := mk {
  Enabled : bool;
  Header : string;
  QueryParam : string;
  FromLabel : string;
  DefaultTenant : string
}.
End MultiTenancy.

Section Schema.
(** Settings records owned by other packages ([config], [exporterhelper],
    [confighttp], [resourcetotelemetry]) and the [WALConfig] of this
    package's write-ahead log; [Validate] never looks inside them. *)
Variables ExporterSettingsT TimeoutSettingsT RetrySettingsT : Type.
Variables HTTPClientSettingsT ResourceToTelemetrySettingsT WALConfigT : Type.

Record Config : Type := {
  ExporterSettings : ExporterSettingsT;
  TimeoutSettings : TimeoutSettingsT;
  RetrySettings : RetrySettingsT;
  sanitizeLabel : bool;
  Namespace : string;
  RemoteWriteQueue : RemoteWriteQueue.t;
  MultiTenancy : MultiTenancy.t;
  ExternalLabels : gmap string string;
  HTTPClientSettings : HTTPClientSettingsT;
  ResourceToTelemetrySettings : ResourceToTelemetrySettingsT;
  WAL : option WALConfigT
}.

(** ** Methods on a pointer receiver

    [Validate] has receiver [cfg *Config]: it runs against the [Config]
    the pointer designates and could assign to any of its fields.  A
    method body is therefore a state transformer over the pointee. *)
Definition M (A : Type) : Type := Config -> A * Config.

Definition ret {A : Type} (a : A) : M A := fun s => (a, s).

Definition bind {A B : Type} (m : M A) (k : A -> M B) : M B :=
  fun s => let (a, s') := m s in k a s'.

(** Evaluate an expression over the fields of [*cfg]. *)
Definition read {A : Type} (e : Config -> A) : M A := fun s => (e s, s).

(** Assign to [*cfg]. *)
Definition write (upd : Config -> Config) : M unit := fun s => (tt, upd s).

Definition result {A : Type} (r : A * Config) : A := fst r.
Definition final {A : Type} (r : A * Config) : Config := snd r.
End Schema.

Arguments ExporterSettings {_ _ _ _ _ _} _.
Arguments TimeoutSettings {_ _ _ _ _ _} _.
Arguments RetrySettings {_ _ _ _ _ _} _.
Arguments sanitizeLabel {_ _ _ _ _ _} _.
Arguments Namespace {_ _ _ _ _ _} _.
Arguments RemoteWriteQueue {_ _ _ _ _ _} _.
Arguments MultiTenancy {_ _ _ _ _ _} _.
Arguments ExternalLabels {_ _ _ _ _ _} _.
Arguments HTTPClientSettings {_ _ _ _ _ _} _.
Arguments ResourceToTelemetrySettings {_ _ _ _ _ _} _.
Arguments WAL {_ _ _ _ _ _} _.
Arguments Build_Config {_ _ _ _ _ _} _ _ _ _ _ _ _ _ _ _ _.
Arguments ret {_ _ _ _ _ _ _} _ _.
Arguments bind {_ _ _ _ _ _ _ _} _ _ _.
Arguments read {_ _ _ _ _ _ _} _ _.
Arguments write {_ _ _ _ _ _} _ _.
Arguments result {_ _ _ _ _ _ _} _.
Arguments final {_ _ _ _ _ _ _} _.

Declare Scope method_scope.
Delimit Scope method_scope with method.
Notation "x <- m ;; k" := (bind m (fun x => k))
  (at level 100, m at next level, right associativity) : method_scope.

(** ** Validate *)

Definition ErrNegativeQueueSize : string :=
  "remote write queue size can't be negative".
Definition ErrZeroSizeQueue : string :=
  "a 0 size queue will drop all the data".
Definition ErrNegativeConsumers : string :=
  "remote write consumer number can't be negative".
Definition ErrNoHeaderOrQueryParam : string :=
  "one of multi_tenancy header or query_param should be set".
Definition ErrNoFromLabel : string :=
  "from_label should be set to find tenant name".

Section Validate.
Context {ExporterSettingsT TimeoutSettingsT RetrySettingsT : Type}.
Context {HTTPClientSettingsT ResourceToTelemetrySettingsT WALConfigT : Type}.

Local Abbreviation Config :=
  (Config ExporterSettingsT TimeoutSettingsT RetrySettingsT
          HTTPClientSettingsT ResourceToTelemetrySettingsT WALConfigT).

(** [func (cfg *Config) Validate() error] *)
Definition Validate : M _ _ _ _ _ _ error :=
  (c1 <- read (fun cfg : Config =>
         cfg.(RemoteWriteQueue).(RemoteWriteQueue.QueueSize) <? 0) ;;
   if c1 then ret (Errorf ErrNegativeQueueSize) else
   c2 <- read (fun cfg : Config =>
         cfg.(RemoteWriteQueue).(RemoteWriteQueue.Enabled)
         && (cfg.(RemoteWriteQueue).(RemoteWriteQueue.QueueSize) =? 0)) ;;
   if c2 then ret (Errorf ErrZeroSizeQueue) else
   c3 <- read (fun cfg : Config =>
         cfg.(RemoteWriteQueue).(RemoteWriteQueue.NumConsumers) <? 0) ;;
   if c3 then ret (Errorf ErrNegativeConsumers) else
   c4 <- read (fun cfg : Config =>
         cfg.(MultiTenancy).(MultiTenancy.Enabled)
         && String.eqb cfg.(MultiTenancy).(MultiTenancy.Header) ""
         && String.eqb cfg.(MultiTenancy).(MultiTenancy.QueryParam) "") ;;
   if c4 then ret (Errorf ErrNoHeaderOrQueryParam) else
   c5 <- read (fun cfg : Config =>
         cfg.(MultiTenancy).(MultiTenancy.Enabled)
         && String.eqb cfg.(MultiTenancy).(MultiTenancy.FromLabel) "") ;;
   if c5 then ret (Errorf ErrNoFromLabel) else
   ret None)%method.

(** ** The ordered rule list of the specification

    This second description follows the wording of the specification, not
    the code: five reject rules, each a condition on the configuration
    paired with its reason, listed in the order in which they are said to
    be checked.  It is compared with [Validate] below. *)
Record rule : Type := {
  violated : Config -> bool;
  reason : string
}.

Definition spec_rules : list rule :=
  [ {| violated := fun cfg =>
         cfg.(RemoteWriteQueue).(RemoteWriteQueue.QueueSize) <? 0;
       reason := "remote write queue size can't be negative" |};
    {| violated := fun cfg =>
         cfg.(RemoteWriteQueue).(RemoteWriteQueue.Enabled)
         && (cfg.(RemoteWriteQueue).(RemoteWriteQueue.QueueSize) =? 0);
       reason := "a 0 size queue will drop all the data" |};
    {| violated := fun cfg =>
         cfg.(RemoteWriteQueue).(RemoteWriteQueue.NumConsumers) <? 0;
       reason := "remote write consumer number can't be negative" |};
    {| violated := fun cfg =>
         cfg.(MultiTenancy).(MultiTenancy.Enabled)
         && String.eqb cfg.(MultiTenancy).(MultiTenancy.Header) ""
         && String.eqb cfg.(MultiTenancy).(MultiTenancy.QueryParam) "";
       reason := "one of multi_tenancy header or query_param should be set" |};
    {| violated := fun cfg =>
         cfg.(MultiTenancy).(MultiTenancy.Enabled)
         && String.eqb cfg.(MultiTenancy).(MultiTenancy.FromLabel) "";
       reason := "from_label should be set to find tenant name" |} ].

(** The reason of the first rule of the list that [cfg] violates. *)
Definition earliest_violation (cfg : Config) : error :=
  option_map reason (List.find (fun r => violated r cfg) spec_rules).

(** Two configurations agree on the seven fields [Validate] mentions. *)
Definition same_validated_fields (a b : Config) : Prop :=
  a.(RemoteWriteQueue).(RemoteWriteQueue.Enabled)
    = b.(RemoteWriteQueue).(RemoteWriteQueue.Enabled)
  /\ a.(RemoteWriteQueue).(RemoteWriteQueue.QueueSize)
    = b.(RemoteWriteQueue).(RemoteWriteQueue.QueueSize)
  /\ a.(RemoteWriteQueue).(RemoteWriteQueue.NumConsumers)
    = b.(RemoteWriteQueue).(RemoteWriteQueue.NumConsumers)
  /\ a.(MultiTenancy).(MultiTenancy.Enabled)
    = b.(MultiTenancy).(MultiTenancy.Enabled)
  /\ a.(MultiTenancy).(MultiTenancy.Header)
    = b.(MultiTenancy).(MultiTenancy.Header)
  /\ a.(MultiTenancy).(MultiTenancy.QueryParam)
    = b.(MultiTenancy).(MultiTenancy.QueryParam)
  /\ a.(MultiTenancy).(MultiTenancy.FromLabel)
    = b.(MultiTenancy).(MultiTenancy.FromLabel).
End Validate.

Arguments rule : clear implicits.

(** ** The feature gate and the package initialiser *)

Module featuregate.
(** The fields of [featuregate.Gate] that the literal in [config.go]
    sets. *)
Record Gate : Type := {
  ID : string;
  Enabled : bool;
  Description : string
}.

Inductive outcome : Type :=
| Registered (r : gmap string Gate)
| Fatal (id : string).

(** Modelled from the spec: the process-wide flag registry and its
    [register] operation live in the collector's [featuregate] package,
    which is not part of this source tree.  The specification requires
    that registering an identifier that is already present fails loudly
    and never overwrites the earlier registration; a fresh identifier is
    recorded with the default state and description it was given. *)
Definition MustRegister (r : gmap string Gate) (g : Gate) : outcome :=
  match r !! ID g with
  | Some _ => Fatal (ID g)
  | None => Registered (<[ID g := g]> r)
  end.
End featuregate.

(** [var dropSanitizationGate = featuregate.Gate{...}] *)
Definition dropSanitizationGate : featuregate.Gate :=
  {| featuregate.ID :=
       "exporter.prometheusremotewrite.PermissiveLabelSanitization";
     featuregate.Enabled := false;
     featuregate.Description :=
       "Controls whether to change labels starting with '_' to 'key_'" |}.

(** [func init()]: [featuregate.GetRegistry()] yields the process-wide
    registry, threaded here as an explicit argument. *)
Definition init (registry : gmap string featuregate.Gate)
  : featuregate.outcome :=
  featuregate.MustRegister registry dropSanitizationGate.

(** ** Concrete configurations

    The collaborators' settings are instantiated with [unit], except the
    resource-to-telemetry settings (their [Enabled] switch, a [bool]) and
    the WAL configuration (a directory name); the remaining fields outside
    the two validated records take their Go zero values. *)
Definition sample (q : RemoteWriteQueue.t) (mt : MultiTenancy.t)
  : Config unit unit unit unit bool string :=
  Build_Config tt tt tt false "" q mt ∅ tt false None.

(** The zero-valued configuration. *)
Definition zeroConfig : Config unit unit unit unit bool string :=
  sample (RemoteWriteQueue.mk false 0 0) (MultiTenancy.mk false "" "" "" "").

(** Same validated fields as [sample q mt], every other field changed. *)
Definition decorated (q : RemoteWriteQueue.t) (mt : MultiTenancy.t)
  : Config unit unit unit unit bool string :=
  Build_Config tt tt tt true "otel" q
    (MultiTenancy.mk (MultiTenancy.Enabled mt) (MultiTenancy.Header mt)
       (MultiTenancy.QueryParam mt) (MultiTenancy.FromLabel mt) "anonymous")
    {[ "__replica__" := "a" ]} tt true (Some "/var/lib/otel/wal").

(** * Properties *)

(** The five messages are plain text, so [Errorf] has nothing to format. *)
Lemma messages_have_no_verb :
  forallb (fun m => negb (has_verb m))
    [ErrNegativeQueueSize; ErrZeroSizeQueue; ErrNegativeConsumers;
     ErrNoHeaderOrQueryParam; ErrNoFromLabel] = true.
Proof. reflexivity. Qed.

(** The first element of a list satisfying a test is the one found at the
    least index where the test succeeds. *)
Lemma find_least_index {A : Type} (P : A -> bool) (l : list A) :
  forall (i : nat) (x : A),
    l !! i = Some x ->
    P x = true ->
    (forall (j : nat) (y : A), (j < i)%nat -> l !! j = Some y -> P y = false) ->
    List.find P l = Some x.
Proof.
  induction l as [|a l IH]; intros i x Hi Hx Hbefore.
  - discriminate.
  - destruct i as [|i]; simpl in *.
    + injection Hi as ->. now rewrite Hx.
    + rewrite (Hbefore 0%nat a) by (first [lia | reflexivity]).
      apply (IH i x Hi Hx).
      intros j y Hj Hy. apply (Hbefore (S j) y); [lia | exact Hy].
Qed.

Section Properties.
Context {ExporterSettingsT TimeoutSettingsT RetrySettingsT : Type}.
Context {HTTPClientSettingsT ResourceToTelemetrySettingsT WALConfigT : Type}.

Local Abbreviation Config :=
  (Config ExporterSettingsT TimeoutSettingsT RetrySettingsT
          HTTPClientSettingsT ResourceToTelemetrySettingsT WALConfigT).

Implicit Types cfg : Config.

(** Running the method body: the outcome of the chain of tests, and the
    receiver it leaves behind. *)
Lemma Validate_run cfg :
  Validate cfg =
  (if cfg.(RemoteWriteQueue).(RemoteWriteQueue.QueueSize) <? 0
   then Errorf ErrNegativeQueueSize
   else if cfg.(RemoteWriteQueue).(RemoteWriteQueue.Enabled)
           && (cfg.(RemoteWriteQueue).(RemoteWriteQueue.QueueSize) =? 0)
   then Errorf ErrZeroSizeQueue
   else if cfg.(RemoteWriteQueue).(RemoteWriteQueue.NumConsumers) <? 0
   then Errorf ErrNegativeConsumers
   else if cfg.(MultiTenancy).(MultiTenancy.Enabled)
           && String.eqb cfg.(MultiTenancy).(MultiTenancy.Header) ""
           && String.eqb cfg.(MultiTenancy).(MultiTenancy.QueryParam) ""
   then Errorf ErrNoHeaderOrQueryParam
   else if cfg.(MultiTenancy).(MultiTenancy.Enabled)
           && String.eqb cfg.(MultiTenancy).(MultiTenancy.FromLabel) ""
   then Errorf ErrNoFromLabel
   else None,
   cfg).
Proof.
  unfold Validate, bind, read, ret.
  repeat match goal with
         | |- context [if ?b then _ else _] => destruct b
         end; reflexivity.
Qed.

Lemma Validate_result_earliest cfg :
  result (Validate cfg) = earliest_violation cfg.
Proof.
  rewrite Validate_run. unfold result, earliest_violation. simpl.
  repeat match goal with
         | |- context [if ?b then _ else _] => destruct b
         end; reflexivity.
Qed.

(** Turn the boolean tests of the method body into propositions. *)
Ltac split_tests :=
  repeat match goal with
         | |- context [Z.ltb ?a ?b] => destruct (Z.ltb_spec a b)
         | |- context [Z.eqb ?a ?b] => destruct (Z.eqb_spec a b)
         | |- context [String.eqb ?a ?b] => destruct (String.eqb_spec a b)
         | |- context [RemoteWriteQueue.Enabled ?q] =>
             destruct (RemoteWriteQueue.Enabled q) eqn:?
         | |- context [MultiTenancy.Enabled ?m] =>
             destruct (MultiTenancy.Enabled m) eqn:?
         end;
  simpl.

Ltac settle :=
  solve [ reflexivity | discriminate | lia | congruence | tauto
        | intuition (first [discriminate | lia | congruence]) ].

Local Abbreviation Rule :=
  (rule ExporterSettingsT TimeoutSettingsT RetrySettingsT
        HTTPClientSettingsT ResourceToTelemetrySettingsT WALConfigT).

(** C1: the checks run in the listed order and the first failing one
    decides the message.  Whenever a configuration violates the rule at
    position [i] of the ordered list (queue size negative, enabled queue
    of size zero, consumer count negative, multi-tenancy without header
    and query parameter, multi-tenancy without from-label) and violates
    none of the rules before it, [Validate] returns the reason of that
    rule, however many later rules are violated as well. *)
Theorem Validate_earliest_rule_wins cfg (i : nat) (r : Rule) :
  spec_rules !! i = Some r ->
  violated r cfg = true ->
  (forall (j : nat) (r' : Rule),
      (j < i)%nat -> spec_rules !! j = Some r' -> violated r' cfg = false) ->
  result (Validate cfg) = Errorf (reason r).
Proof.
  intros Hi Hr Hbefore.
  rewrite Validate_result_earliest. unfold earliest_violation.
  now rewrite (find_least_index _ _ i r Hi Hr Hbefore).
Qed.

(** C2: [Validate] returns nil exactly when no reject rule fires, that
    is when the queue size and the consumer count are non-negative, the
    queue is not both enabled and of size zero, and multi-tenancy is not
    enabled with header and query parameter both empty nor enabled with
    an empty from-label. *)
Theorem Validate_accepts_iff_no_rule_fires cfg :
  result (Validate cfg) = None <->
  (cfg.(RemoteWriteQueue).(RemoteWriteQueue.QueueSize) >= 0
   /\ ~ (cfg.(RemoteWriteQueue).(RemoteWriteQueue.Enabled) = true
        /\ cfg.(RemoteWriteQueue).(RemoteWriteQueue.QueueSize) = 0)
   /\ cfg.(RemoteWriteQueue).(RemoteWriteQueue.NumConsumers) >= 0
   /\ ~ (cfg.(MultiTenancy).(MultiTenancy.Enabled) = true
        /\ cfg.(MultiTenancy).(MultiTenancy.Header) = ""
        /\ cfg.(MultiTenancy).(MultiTenancy.QueryParam) = "")
   /\ ~ (cfg.(MultiTenancy).(MultiTenancy.Enabled) = true
        /\ cfg.(MultiTenancy).(MultiTenancy.FromLabel) = "")).
Proof.
  rewrite Validate_run. unfold result, Errorf. simpl.
  split_tests; settle.
Qed.

(** C3: a negative queue size is rejected with the queue-size message,
    whatever the other fields hold. *)
Theorem Validate_negative_queue_size cfg :
  cfg.(RemoteWriteQueue).(RemoteWriteQueue.QueueSize) < 0 ->
  result (Validate cfg) = Errorf "remote write queue size can't be negative".
Proof.
  intros Hq. rewrite Validate_run. unfold result. simpl.
  destruct (Z.ltb_spec (RemoteWriteQueue.QueueSize (RemoteWriteQueue cfg)) 0);
    [reflexivity | lia].
Qed.

(** C4: an enabled queue of size zero is rejected with the zero-size
    message. *)
Theorem Validate_zero_size_enabled_queue cfg :
  cfg.(RemoteWriteQueue).(RemoteWriteQueue.Enabled) = true ->
  cfg.(RemoteWriteQueue).(RemoteWriteQueue.QueueSize) = 0 ->
  result (Validate cfg) = Errorf "a 0 size queue will drop all the data".
Proof.
  intros He Hq. rewrite Validate_run. unfold result. simpl.
  now rewrite He, Hq.
Qed.

(** C5, as amended: a negative consumer count is always rejected, and
    the message is the consumer-count one whenever neither of the two
    earlier checks fires (queue size non-negative, queue not both enabled
    and of size zero). *)
Theorem Validate_negative_consumers cfg :
  cfg.(RemoteWriteQueue).(RemoteWriteQueue.NumConsumers) < 0 ->
  result (Validate cfg) <> None
  /\ (cfg.(RemoteWriteQueue).(RemoteWriteQueue.QueueSize) >= 0 ->
      ~ (cfg.(RemoteWriteQueue).(RemoteWriteQueue.Enabled) = true
         /\ cfg.(RemoteWriteQueue).(RemoteWriteQueue.QueueSize) = 0) ->
      result (Validate cfg)
      = Errorf "remote write consumer number can't be negative").
Proof.
  intros Hn. rewrite Validate_run. unfold result, Errorf. simpl.
  split_tests; settle.
Qed.

(** C6, as amended: multi-tenancy enabled with header and query parameter
    both empty is always rejected, whatever the from-label, and the
    message is the header-or-query-parameter one whenever none of the
    three queue checks fires. *)
Theorem Validate_missing_header_and_query_param cfg :
  cfg.(MultiTenancy).(MultiTenancy.Enabled) = true ->
  cfg.(MultiTenancy).(MultiTenancy.Header) = "" ->
  cfg.(MultiTenancy).(MultiTenancy.QueryParam) = "" ->
  result (Validate cfg) <> None
  /\ (cfg.(RemoteWriteQueue).(RemoteWriteQueue.QueueSize) >= 0 ->
      ~ (cfg.(RemoteWriteQueue).(RemoteWriteQueue.Enabled) = true
         /\ cfg.(RemoteWriteQueue).(RemoteWriteQueue.QueueSize) = 0) ->
      cfg.(RemoteWriteQueue).(RemoteWriteQueue.NumConsumers) >= 0 ->
      result (Validate cfg)
      = Errorf "one of multi_tenancy header or query_param should be set").
Proof.
  intros He Hh Hp. rewrite Validate_run. unfold result, Errorf. simpl.
  rewrite He, Hh, Hp. simpl.
  split_tests; settle.
Qed.

(** C7, as amended: multi-tenancy enabled with a header or a query
    parameter but an empty from-label is always rejected, and the message
    is the from-label one whenever none of the three queue checks
    fires. *)
Theorem Validate_missing_from_label cfg :
  cfg.(MultiTenancy).(MultiTenancy.Enabled) = true ->
  cfg.(MultiTenancy).(MultiTenancy.Header) <> ""
  \/ cfg.(MultiTenancy).(MultiTenancy.QueryParam) <> "" ->
  cfg.(MultiTenancy).(MultiTenancy.FromLabel) = "" ->
  result (Validate cfg) <> None
  /\ (cfg.(RemoteWriteQueue).(RemoteWriteQueue.QueueSize) >= 0 ->
      ~ (cfg.(RemoteWriteQueue).(RemoteWriteQueue.Enabled) = true
         /\ cfg.(RemoteWriteQueue).(RemoteWriteQueue.QueueSize) = 0) ->
      cfg.(RemoteWriteQueue).(RemoteWriteQueue.NumConsumers) >= 0 ->
      result (Validate cfg)
      = Errorf "from_label should be set to find tenant name").
Proof.
  intros He Hhp Hf. rewrite Validate_run. unfold result, Errorf. simpl.
  rewrite He, Hf. simpl.
  split_tests; settle.
Qed.

(** C8: [Validate] has no effect on its receiver and is a function of
    it.  The configuration left behind equals the one it was called on,
    on acceptance and on rejection alike; equal configurations yield
    equal results; and calling it twice in a row on the same receiver
    returns the same result twice and still leaves the receiver as it
    was. *)
Theorem Validate_side_effect_free cfg :
  final (Validate cfg) = cfg
  /\ (forall cfg', cfg' = cfg ->
        result (Validate cfg') = result (Validate cfg))
  /\ (e1 <- Validate ;; e2 <- Validate ;; ret (e1, e2))%method cfg
     = ((result (Validate cfg), result (Validate cfg)), cfg).
Proof.
  repeat split.
  - now rewrite Validate_run.
  - now intros cfg' ->.
  - unfold bind, ret. rewrite Validate_run. cbn [fst snd result].
    now rewrite Validate_run.
Qed.

(** C10: the result of [Validate] is determined by the seven fields
    Enabled, QueueSize, NumConsumers of the queue and Enabled, Header,
    QueryParam, FromLabel of multi-tenancy: two configurations that agree
    on them obtain the same result, whatever their namespace, external
    labels, default tenant, sanitizeLabel flag, WAL and transport, retry,
    timeout and conversion settings. *)
Theorem Validate_depends_on_seven_fields (a b : Config) :
  same_validated_fields a b ->
  result (Validate a) = result (Validate b).
Proof.
  intros (H1 & H2 & H3 & H4 & H5 & H6 & H7).
  rewrite !Validate_run. unfold result. simpl.
  now rewrite H1, H2, H3, H4, H5, H6, H7.
Qed.
End Properties.

(** C9: the package initialiser registers the PermissiveLabelSanitization
    gate, disabled, into a registry that does not know it yet and leaves
    every other gate alone; from then on registering any gate under the same
    identifier, and in particular running the initialiser again, ends
    fatally instead of replacing the first registration. *)
Theorem init_registers_once (registry : gmap string featuregate.Gate) :
  registry !! featuregate.ID dropSanitizationGate = None ->
  exists registry' : gmap string featuregate.Gate,
    init registry = featuregate.Registered registry'
    /\ registry' !! featuregate.ID dropSanitizationGate
       = Some dropSanitizationGate
    /\ featuregate.Enabled dropSanitizationGate = false
    /\ (forall id : string,
          id <> featuregate.ID dropSanitizationGate ->
          registry' !! id = registry !! id)
    /\ (forall g : featuregate.Gate,
          featuregate.ID g = featuregate.ID dropSanitizationGate ->
          featuregate.MustRegister registry' g
          = featuregate.Fatal (featuregate.ID dropSanitizationGate))
    /\ init registry'
       = featuregate.Fatal (featuregate.ID dropSanitizationGate).
Proof.
  intros Hfresh.
  exists (<[featuregate.ID dropSanitizationGate := dropSanitizationGate]>
            registry).
  assert (Hin :
    <[featuregate.ID dropSanitizationGate := dropSanitizationGate]> registry
      !! featuregate.ID dropSanitizationGate = Some dropSanitizationGate)
    by apply lookup_insert_eq.
  repeat split.
  - unfold init, featuregate.MustRegister. now rewrite Hfresh.
  - exact Hin.
  - intros id Hid. now apply lookup_insert_ne.
  - intros g Hg. unfold featuregate.MustRegister. now rewrite Hg, Hin.
  - unfold init, featuregate.MustRegister. now rewrite Hin.
Qed.

(** ** The claims at concrete configurations *)

(** Three rules violated at once (consumer count, header/query parameter,
    from-label): the third rule of the list is the earliest and wins. *)
Lemma earliest_rule_wins_at_three_violations :
  result (Validate (sample (RemoteWriteQueue.mk true 1 (-1))
                           (MultiTenancy.mk true "" "" "" "")))
  = Errorf "remote write consumer number can't be negative".
Proof.
  eapply eq_trans;
    [ eapply (Validate_earliest_rule_wins _ 2%nat);
      [ reflexivity | reflexivity | ]
    | reflexivity ].
  intros [|[|j]] r' Hj Hr'; [| | lia];
    injection Hr' as <-; reflexivity.
Defined.

Lemma zeroConfig_accepted : result (Validate zeroConfig) = None.
Proof.
  apply (proj2 (Validate_accepts_iff_no_rule_fires zeroConfig)).
  simpl. repeat split; try lia; intros [H _]; discriminate H.
Defined.

(** Scenario A of the specification. *)
Lemma negative_queue_size_scenario :
  result (Validate (sample (RemoteWriteQueue.mk true (-1) 5)
                           (MultiTenancy.mk false "" "" "" "")))
  = Errorf "remote write queue size can't be negative".
Proof. apply Validate_negative_queue_size. simpl. lia. Defined.

(** Scenario B of the specification. *)
Lemma zero_size_queue_scenario :
  result (Validate (sample (RemoteWriteQueue.mk true 0 5)
                           (MultiTenancy.mk false "" "" "" "")))
  = Errorf "a 0 size queue will drop all the data".
Proof. apply Validate_zero_size_enabled_queue; reflexivity. Defined.

Lemma negative_consumers_scenario :
  result (Validate (sample (RemoteWriteQueue.mk true 10 (-1))
                           (MultiTenancy.mk false "" "" "" "")))
  = Errorf "remote write consumer number can't be negative".
Proof.
  apply Validate_negative_consumers; simpl;
    [lia | lia | intros [_ H]; discriminate H].
Defined.

Lemma missing_header_and_query_param_scenario :
  result (Validate (sample (RemoteWriteQueue.mk false 0 0)
                           (MultiTenancy.mk true "" "" "tenant_id" "")))
  = Errorf "one of multi_tenancy header or query_param should be set".
Proof.
  apply Validate_missing_header_and_query_param; simpl;
    [reflexivity | reflexivity | reflexivity | lia
    | intros [H _]; discriminate H | lia].
Defined.

(** Scenario C of the specification. *)
Lemma missing_from_label_scenario :
  result (Validate (sample (RemoteWriteQueue.mk false 0 0)
                           (MultiTenancy.mk true "X-Tenant" "" "" "")))
  = Errorf "from_label should be set to find tenant name".
Proof.
  apply Validate_missing_from_label; simpl;
    [reflexivity | left; discriminate | reflexivity | lia
    | intros [H _]; discriminate H | lia].
Defined.

Lemma rejecting_call_leaves_receiver :
  let cfg := decorated (RemoteWriteQueue.mk true 0 5)
                       (MultiTenancy.mk true "X-Tenant" "" "" "") in
  final (Validate cfg) = cfg
  /\ result (Validate
       (Build_Config tt tt tt true "otel" (RemoteWriteQueue.mk true 0 5)
          (MultiTenancy.mk true "X-Tenant" "" "" "anonymous")
          {[ "__replica__" := "a" ]} tt true (Some "/var/lib/otel/wal")))
     = result (Validate cfg).
Proof.
  intros cfg.
  destruct (Validate_side_effect_free cfg) as (Hfinal & Hsame & _).
  split; [exact Hfinal | apply Hsame; reflexivity].
Defined.

Lemma init_on_empty_registry :
  exists registry' : gmap string featuregate.Gate,
    init ∅ = featuregate.Registered registry'
    /\ init registry'
       = featuregate.Fatal
           "exporter.prometheusremotewrite.PermissiveLabelSanitization".
Proof.
  assert (Hfresh :
    (∅ : gmap string featuregate.Gate)
      !! featuregate.ID dropSanitizationGate = None)
    by (vm_compute; reflexivity).
  destruct (init_registers_once ∅ Hfresh)
    as (registry' & Hinit & _ & _ & _ & _ & Hagain).
  exists registry'. split; [exact Hinit | exact Hagain].
Defined.

Lemma unvalidated_fields_do_not_matter :
  result (Validate (sample (RemoteWriteQueue.mk true 100 4)
                           (MultiTenancy.mk true "X-Tenant" "" "" "")))
  = result (Validate (decorated (RemoteWriteQueue.mk true 100 4)
                                (MultiTenancy.mk true "X-Tenant" "" "" ""))).
Proof.
  apply Validate_depends_on_seven_fields.
  unfold same_validated_fields; simpl. repeat split; reflexivity.
Defined.

(** ** Where the unqualified rejection messages fail *)

(** A negative consumer count next to a negative queue size: the checks
    are ordered, and the queue-size message is the one returned. *)
Lemma negative_consumers_behind_negative_queue_size :
  let cfg := sample (RemoteWriteQueue.mk false (-1) (-1))
                    (MultiTenancy.mk false "" "" "" "") in
  cfg.(RemoteWriteQueue).(RemoteWriteQueue.NumConsumers) < 0
  /\ result (Validate cfg)
     = Errorf "remote write queue size can't be negative"
  /\ result (Validate cfg)
     <> Errorf "remote write consumer number can't be negative".
Proof.
  simpl. split; [lia | split; [reflexivity | discriminate]].
Qed.

(** Multi-tenancy without header and query parameter next to an enabled
    queue of size zero: the zero-size message is the one returned. *)
Lemma missing_header_behind_zero_size_queue :
  let cfg := sample (RemoteWriteQueue.mk true 0 5)
                    (MultiTenancy.mk true "" "" "tenant_id" "") in
  cfg.(MultiTenancy).(MultiTenancy.Enabled) = true
  /\ cfg.(MultiTenancy).(MultiTenancy.Header) = ""
  /\ cfg.(MultiTenancy).(MultiTenancy.QueryParam) = ""
  /\ result (Validate cfg) = Errorf "a 0 size queue will drop all the data"
  /\ result (Validate cfg)
     <> Errorf "one of multi_tenancy header or query_param should be set".
Proof.
  simpl. repeat split; discriminate.
Qed.

(** Multi-tenancy with a header but no from-label next to a negative
    consumer count: the consumer-count message is the one returned. *)
Lemma missing_from_label_behind_negative_consumers :
  let cfg := sample (RemoteWriteQueue.mk false 0 (-3))
                    (MultiTenancy.mk true "X-Tenant" "" "" "") in
  cfg.(MultiTenancy).(MultiTenancy.Enabled) = true
  /\ (cfg.(MultiTenancy).(MultiTenancy.Header) <> ""
      \/ cfg.(MultiTenancy).(MultiTenancy.QueryParam) <> "")
  /\ cfg.(MultiTenancy).(MultiTenancy.FromLabel) = ""
  /\ result (Validate cfg)
     = Errorf "remote write consumer number can't be negative"
  /\ result (Validate cfg)
     <> Errorf "from_label should be set to find tenant name".
Proof.
  simpl. repeat split; [left; discriminate | discriminate].
Qed.

(** Scenario D of the specification: header and from-label set. *)
Example tenant_header_and_label_accepted :
  result (Validate (sample (RemoteWriteQueue.mk false 0 0)
                           (MultiTenancy.mk true "X-Tenant" "" "tenant_id" "")))
  = None.
Proof. reflexivity. Qed.

(** The receiver model does observe assignments: a method body that sets
    [cfg.sanitizeLabel = true] leaves a configuration behind that differs
    from the zero-valued one it was run on. *)
Example assignment_is_observed :
  final (write (fun c : Config unit unit unit unit bool string =>
                  Build_Config (ExporterSettings c) (TimeoutSettings c)
                    (RetrySettings c) true (Namespace c)
                    (RemoteWriteQueue c) (MultiTenancy c) (ExternalLabels c)
                    (HTTPClientSettings c) (ResourceToTelemetrySettings c)
                    (WAL c))
               zeroConfig)
  <> zeroConfig.
Proof.
  intros H. apply (f_equal sanitizeLabel) in H. discriminate H.
Qed.

(** * Further properties of [Validate]

    What a returned message tells the operator, which fields a disabled
    feature shields from validation, and how acceptance behaves when the
    queue grows. *)

Section Diagnosis.
Context {ExporterSettingsT TimeoutSettingsT RetrySettingsT : Type}.
Context {HTTPClientSettingsT ResourceToTelemetrySettingsT WALConfigT : Type}.

Local Abbreviation Config :=
  (Config ExporterSettingsT TimeoutSettingsT RetrySettingsT
          HTTPClientSettingsT ResourceToTelemetrySettingsT WALConfigT).

Implicit Types cfg a b : Config.

Ltac case_tests :=
  repeat match goal with
         | |- context [Z.ltb ?x ?y] => destruct (Z.ltb_spec x y)
         | |- context [Z.eqb ?x ?y] => destruct (Z.eqb_spec x y)
         | |- context [String.eqb ?x ?y] => destruct (String.eqb_spec x y)
         | |- context [RemoteWriteQueue.Enabled ?q] =>
             destruct (RemoteWriteQueue.Enabled q) eqn:?
         | |- context [MultiTenancy.Enabled ?m] =>
             destruct (MultiTenancy.Enabled m) eqn:?
         end;
  simpl.

Ltac finish :=
  solve [ reflexivity | discriminate | lia | congruence | tauto
        | intuition (first [discriminate | lia | congruence]) ].

Ltac run_Validate :=
  rewrite ?Validate_run;
  unfold result, Errorf, ErrNegativeQueueSize, ErrZeroSizeQueue,
    ErrNegativeConsumers, ErrNoHeaderOrQueryParam, ErrNoFromLabel;
  simpl.

(** X1: the errors of [Validate] form a closed set: the result is nil or
    carries one of the five fixed messages, never anything else. *)
Theorem Validate_closed_error_set cfg :
  In (result (Validate cfg))
     [ None;
       Errorf "remote write queue size can't be negative";
       Errorf "a 0 size queue will drop all the data";
       Errorf "remote write consumer number can't be negative";
       Errorf "one of multi_tenancy header or query_param should be set";
       Errorf "from_label should be set to find tenant name" ].
Proof.
  run_Validate.
  repeat match goal with
         | |- context [if ?t then _ else _] => destruct t
         end; simpl; tauto.
Qed.

(** X2: the queue-size message is returned exactly for a negative queue
    size. *)
Theorem negative_queue_size_message_iff cfg :
  result (Validate cfg) = Errorf "remote write queue size can't be negative"
  <-> cfg.(RemoteWriteQueue).(RemoteWriteQueue.QueueSize) < 0.
Proof. run_Validate. case_tests; finish. Qed.

(** X3: the zero-size message is returned exactly for an enabled queue of
    size zero. *)
Theorem zero_size_queue_message_iff cfg :
  result (Validate cfg) = Errorf "a 0 size queue will drop all the data"
  <-> (cfg.(RemoteWriteQueue).(RemoteWriteQueue.Enabled) = true
       /\ cfg.(RemoteWriteQueue).(RemoteWriteQueue.QueueSize) = 0).
Proof. run_Validate. case_tests; finish. Qed.

(** X4: the consumer-count message is returned exactly when the consumer
    count is negative and the two checks on the queue size pass: the queue
    size is non-negative, and positive if the queue is enabled. *)
Theorem negative_consumers_message_iff cfg :
  result (Validate cfg)
  = Errorf "remote write consumer number can't be negative"
  <-> (cfg.(RemoteWriteQueue).(RemoteWriteQueue.NumConsumers) < 0
       /\ cfg.(RemoteWriteQueue).(RemoteWriteQueue.QueueSize) >= 0
       /\ (cfg.(RemoteWriteQueue).(RemoteWriteQueue.Enabled) = true ->
           cfg.(RemoteWriteQueue).(RemoteWriteQueue.QueueSize) > 0)).
Proof. run_Validate. case_tests; finish. Qed.

(** X5: a multi-tenancy message vouches for the queue settings.  The
    header-or-query-parameter message is returned exactly when multi-tenancy
    is enabled with both fields empty and all three queue checks pass. *)
Theorem missing_header_message_iff cfg :
  result (Validate cfg)
  = Errorf "one of multi_tenancy header or query_param should be set"
  <-> (cfg.(MultiTenancy).(MultiTenancy.Enabled) = true
       /\ cfg.(MultiTenancy).(MultiTenancy.Header) = ""
       /\ cfg.(MultiTenancy).(MultiTenancy.QueryParam) = ""
       /\ cfg.(RemoteWriteQueue).(RemoteWriteQueue.QueueSize) >= 0
       /\ (cfg.(RemoteWriteQueue).(RemoteWriteQueue.Enabled) = true ->
           cfg.(RemoteWriteQueue).(RemoteWriteQueue.QueueSize) > 0)
       /\ cfg.(RemoteWriteQueue).(RemoteWriteQueue.NumConsumers) >= 0).
Proof. run_Validate. case_tests; finish. Qed.

(** X6: the from-label message is returned exactly when multi-tenancy is
    enabled with an empty from-label, a header or a query parameter is set,
    and all three queue checks pass. *)
Theorem missing_from_label_message_iff cfg :
  result (Validate cfg)
  = Errorf "from_label should be set to find tenant name"
  <-> (cfg.(MultiTenancy).(MultiTenancy.Enabled) = true
       /\ cfg.(MultiTenancy).(MultiTenancy.FromLabel) = ""
       /\ (cfg.(MultiTenancy).(MultiTenancy.Header) <> ""
           \/ cfg.(MultiTenancy).(MultiTenancy.QueryParam) <> "")
       /\ cfg.(RemoteWriteQueue).(RemoteWriteQueue.QueueSize) >= 0
       /\ (cfg.(RemoteWriteQueue).(RemoteWriteQueue.Enabled) = true ->
           cfg.(RemoteWriteQueue).(RemoteWriteQueue.QueueSize) > 0)
       /\ cfg.(RemoteWriteQueue).(RemoteWriteQueue.NumConsumers) >= 0).
Proof. run_Validate. case_tests; finish. Qed.

(** X7: the queue's Enabled switch matters at size zero only.  Two
    configurations with the same non-zero queue size that agree on the
    consumer count and on the four validated multi-tenancy fields obtain the
    same result, whether their queues are enabled or not. *)
Theorem queue_switch_matters_only_at_size_zero a b :
  a.(RemoteWriteQueue).(RemoteWriteQueue.QueueSize) <> 0 ->
  a.(RemoteWriteQueue).(RemoteWriteQueue.QueueSize)
  = b.(RemoteWriteQueue).(RemoteWriteQueue.QueueSize) ->
  a.(RemoteWriteQueue).(RemoteWriteQueue.NumConsumers)
  = b.(RemoteWriteQueue).(RemoteWriteQueue.NumConsumers) ->
  a.(MultiTenancy).(MultiTenancy.Enabled)
  = b.(MultiTenancy).(MultiTenancy.Enabled) ->
  a.(MultiTenancy).(MultiTenancy.Header)
  = b.(MultiTenancy).(MultiTenancy.Header) ->
  a.(MultiTenancy).(MultiTenancy.QueryParam)
  = b.(MultiTenancy).(MultiTenancy.QueryParam) ->
  a.(MultiTenancy).(MultiTenancy.FromLabel)
  = b.(MultiTenancy).(MultiTenancy.FromLabel) ->
  result (Validate a) = result (Validate b).
Proof.
  intros Hnz Hq Hn He Hh Hp Hf. run_Validate.
  rewrite <- Hq, <- Hn, <- He, <- Hh, <- Hp, <- Hf.
  destruct (Z.eqb_spec (RemoteWriteQueue.QueueSize (RemoteWriteQueue a)) 0)
    as [Hz | _]; [contradiction |].
  now rewrite !andb_false_r.
Qed.

(** X8: with multi-tenancy disabled the tenant fields are not validated.
    Two configurations with multi-tenancy off that agree on the three queue
    fields obtain the same result, whatever their header, query parameter
    and from-label. *)
Theorem disabled_tenancy_shields_tenant_fields a b :
  a.(MultiTenancy).(MultiTenancy.Enabled) = false ->
  b.(MultiTenancy).(MultiTenancy.Enabled) = false ->
  a.(RemoteWriteQueue).(RemoteWriteQueue.Enabled)
  = b.(RemoteWriteQueue).(RemoteWriteQueue.Enabled) ->
  a.(RemoteWriteQueue).(RemoteWriteQueue.QueueSize)
  = b.(RemoteWriteQueue).(RemoteWriteQueue.QueueSize) ->
  a.(RemoteWriteQueue).(RemoteWriteQueue.NumConsumers)
  = b.(RemoteWriteQueue).(RemoteWriteQueue.NumConsumers) ->
  result (Validate a) = result (Validate b).
Proof.
  intros Ha Hb He Hq Hn. run_Validate.
  now rewrite Ha, Hb, He, Hq, Hn.
Qed.

(** X9: [Validate] sets no upper bound.  Starting from an accepted
    configuration, raising the queue size or the consumer count, everything
    else that is validated staying the same, gives an accepted
    configuration. *)
Theorem acceptance_survives_growth a b :
  result (Validate a) = None ->
  a.(RemoteWriteQueue).(RemoteWriteQueue.Enabled)
  = b.(RemoteWriteQueue).(RemoteWriteQueue.Enabled) ->
  a.(RemoteWriteQueue).(RemoteWriteQueue.QueueSize)
  <= b.(RemoteWriteQueue).(RemoteWriteQueue.QueueSize) ->
  a.(RemoteWriteQueue).(RemoteWriteQueue.NumConsumers)
  <= b.(RemoteWriteQueue).(RemoteWriteQueue.NumConsumers) ->
  a.(MultiTenancy).(MultiTenancy.Enabled)
  = b.(MultiTenancy).(MultiTenancy.Enabled) ->
  a.(MultiTenancy).(MultiTenancy.Header)
  = b.(MultiTenancy).(MultiTenancy.Header) ->
  a.(MultiTenancy).(MultiTenancy.QueryParam)
  = b.(MultiTenancy).(MultiTenancy.QueryParam) ->
  a.(MultiTenancy).(MultiTenancy.FromLabel)
  = b.(MultiTenancy).(MultiTenancy.FromLabel) ->
  result (Validate b) = None.
Proof.
  run_Validate. intros Hacc He Hq Hn Hm Hh Hp Hf. revert Hacc.
  rewrite <- He, <- Hm, <- Hh, <- Hp, <- Hf.
  case_tests; finish.
Qed.
End Diagnosis.

(** A disabled and an enabled queue of size 5, both with a negative consumer
    count: the same message. *)
Lemma queue_switch_irrelevant_at_size_five :
  result (Validate (sample (RemoteWriteQueue.mk false 5 (-1))
                           (MultiTenancy.mk true "X-Tenant" "" "" "")))
  = result (Validate (decorated (RemoteWriteQueue.mk true 5 (-1))
                                (MultiTenancy.mk true "X-Tenant" "" "" ""))).
Proof.
  apply queue_switch_matters_only_at_size_zero; simpl;
    first [reflexivity | lia].
Defined.

(** Multi-tenancy off: a header without from-label on one side, nothing but
    a default tenant on the other. *)
Lemma tenant_fields_ignored_when_disabled :
  result (Validate (sample (RemoteWriteQueue.mk true 3 1)
                           (MultiTenancy.mk false "X-Tenant" "" "" "")))
  = result (Validate (sample (RemoteWriteQueue.mk true 3 1)
                             (MultiTenancy.mk false "" "tenant" "label"
                                "anonymous"))).
Proof.
  apply disabled_tenancy_shields_tenant_fields; reflexivity.
Defined.

(** From the smallest enabled queue to a large one. *)
Lemma large_queue_accepted :
  result (Validate (decorated (RemoteWriteQueue.mk true 10000 64)
                     (MultiTenancy.mk true "X-Tenant" "" "tenant_id" "")))
  = None.
Proof.
  apply (acceptance_survives_growth
           (sample (RemoteWriteQueue.mk true 1 0)
                   (MultiTenancy.mk true "X-Tenant" "" "tenant_id" "")));
    simpl; first [reflexivity | lia].
Defined.
